(** * One-Factor-Authentication: the commitment server and its client

    A shallow embedding of the HTTP request handler of [server.py] and of
    the SQLite table it works on, and of the functions of [client.py] that
    call it, followed by the properties of the enrollment / verification
    protocol.

    - Python values decoded from the request body are the inductive [json];
      a decoded object is a [gmap string json], as the Python [dict] is.
    - The table [user_commitments] is the list of its rows in rowid order.
    - Handler code runs in the monad [M]: it threads the table, the trace of
      SQL statements executed, the calls made on the HTTP response and the
      log, and it may raise a Python exception.
    - The readings the handler takes from its environment ([time.time()],
      [psutil]) are an explicit argument [env] of the handler. *)

From Stdlib Require Import ZArith QArith DecimalString.
From stdpp Require Import base strings list gmap.

Local Open Scope string_scope.
Local Open Scope Z_scope.
Local Open Scope list_scope.

(** ** Python values *)

(** What [json.loads] can return: [None], a [bool], an [int], a [str], a
    [list] or a [dict]. Numbers are the integers; a literal with a fraction
    or an exponent, which Python reads as a [float], has no constructor. *)
#[warnings="-register-all"]
Inductive json : Type :=
  | JNull
  | JBool (b : bool)
  | JInt (z : Z)
  | JStr (s : string)
  | JArr (l : list json)
  | JObj (d : gmap string json).

(** Exceptions that can leave the handler. *)
Inductive exn : Type :=
  | RequestReadError      (* int(self.headers['Content-Length']) or .decode('utf-8') *)
  | JSONDecodeError       (* json.loads on a body that is not JSON *)
  | AttributeError        (* data.get on a value that is not a dict *)
  | SqliteInterfaceError  (* a parameter of a type sqlite3 cannot bind *)
  | OverflowError         (* an int that does not fit SQLite's INTEGER *)
  | IntegrityError.       (* NOT NULL constraint failed *)

(** [not v]: Python truthiness on decoded values. *)
Definition py_not (v : json) : bool :=
  match v with
  | JNull => true
  | JBool b => negb b
  | JInt z => Z.eqb z 0
  | JStr s => String.eqb s ""
  | JArr l => match l with [] => true | _ => false end
  | JObj d => bool_decide (d = ∅)
  end.

(** [data.get(key)]: the value bound to [key], [None] when there is none;
    [AttributeError] when [data] is not a dict. *)
Definition py_get (data : json) (key : string) : exn + json :=
  match data with
  | JObj d => inr (default JNull (d !! key))
  | _ => inl AttributeError
  end.

(** [stored == supplied] where [stored] is what [verify_crypto_commitment]
    returned: [None] or a [str]. [None] equals only [None]; a [str] equals
    only a [str] with the same characters. *)
Definition py_eq (stored : option string) (supplied : json) : bool :=
  match stored, supplied with
  | None, JNull => true
  | Some s, JStr t => String.eqb s t
  | _, _ => false
  end.

(** ** The table [user_commitments]

    [init_db] creates it as
    [id INTEGER PRIMARY KEY, user_name TEXT NOT NULL, crypto_commitment TEXT NOT NULL]:
    both text columns have TEXT affinity and reject NULL, and no column but
    [id] carries a uniqueness constraint. A table is the list of its rows in
    rowid order, which is the order a scan returns them in. *)
Record row : Type := Row {
  row_id : Z;
  user_name : string;
  crypto_commitment : string
}.

Abbreviation table := (list row).

(** [CREATE TABLE IF NOT EXISTS]: the table found in [commitments.db] is
    kept, a missing one is created empty. *)
Definition init_db (file : option table) : table := default [] file.

(** Values SQLite stores or receives as statement parameters. *)
Inductive sqlval : Type :=
  | SqlNull
  | SqlInteger (z : Z)
  | SqlText (s : string).

(** How the [sqlite3] module binds a Python value to a [?]: [None] is NULL,
    [bool] and [int] are INTEGER (64 bits), [str] is TEXT, and a [list] or a
    [dict] is refused. *)
Definition bind_param (v : json) : exn + sqlval :=
  match v with
  | JNull => inr SqlNull
  | JBool b => inr (SqlInteger (if b then 1 else 0))
  | JInt z =>
      if (- 2 ^ 63 <=? z) && (z <? 2 ^ 63) then inr (SqlInteger z)
      else inl OverflowError
  | JStr s => inr (SqlText s)
  | JArr _ | JObj _ => inl SqliteInterfaceError
  end.

(** The decimal text of an integer. *)
Definition decimal (z : Z) : string := NilZero.string_of_int (Z.to_int z).

(** TEXT affinity: an integer is converted to its text before it is stored
    in, or compared with, a TEXT column. *)
Definition text_affinity (v : sqlval) : sqlval :=
  match v with
  | SqlInteger z => SqlText (decimal z)
  | _ => v
  end.

(** The rows selected by [WHERE user_name = ?]. A NULL parameter compares
    equal to nothing. *)
Definition where_user_name (p : sqlval) (t : table) : table :=
  match text_affinity p with
  | SqlText s => filter (λ r, user_name r = s) t
  | _ => []
  end.

(** The rowid given to a new row: one more than the largest in use, 1 in an
    empty table. *)
Definition next_row_id (t : table) : Z :=
  1 + foldr (λ r m, Z.max (row_id r) m) 0 t.

(** [INSERT INTO user_commitments (user_name, crypto_commitment) VALUES (?, ?)]
    on the table: the NOT NULL constraints are the only ones checked. *)
Definition insert_row (u c : sqlval) (t : table) : exn + table :=
  match text_affinity u, text_affinity c with
  | SqlText su, SqlText sc => inr (t ++ [Row (next_row_id t) su sc])
  | _, _ => inl IntegrityError
  end.

(** ** What a handler acts on *)

(** Calls made on the database connection, in order. *)
Inductive db_call : Type :=
  | Connect                               (* sqlite3.connect('commitments.db') *)
  | ExecSelectOne (p : sqlval)            (* SELECT 1 ... WHERE user_name = ? *)
  | ExecSelectCommitment (p : sqlval)     (* SELECT crypto_commitment ... WHERE user_name = ? *)
  | ExecInsert (u c : sqlval)             (* INSERT INTO user_commitments ... *)
  | Commit
  | Close.

(** Bytes handed to [self.wfile.write]: [json.dumps(v).encode()] for a
    value [v], or a bytes literal. *)
Inductive written : Type :=
  | JsonDumps (v : json)
  | Literal (s : string).

(** Calls made on the HTTP response, in order. *)
Inductive http_call : Type :=
  | SendResponse (code : Z)
  | SendHeader (keyword value : string)
  | EndHeaders
  | WfileWrite (b : written).

(** Records passed to [logging.info]. *)
Inductive log_record : Type :=
  | RequestTime (url : string) (processing_time : Q)
  | CpuUsage (cpu_usage : Q)
  | RamUsage (ram_usage : Q).

(** The readings a handler run takes from outside the program. *)
Record env : Type := Env {
  time_start : Q;              (* time.time() on entry *)
  time_end : Q;                (* time.time() before logging *)
  cpu_percent : Q;             (* psutil.cpu_percent(interval=1) *)
  virtual_memory_percent : Q   (* psutil.virtual_memory().percent *)
}.

Record state : Type := State {
  db : table;
  calls : list db_call;
  out : list http_call;
  log : list log_record
}.

(** ** The handler monad: state passing with exceptions *)

Inductive res (A : Type) : Type :=
  | Ok (a : A)
  | Raised (e : exn).
Arguments Ok {A} a.
Arguments Raised {A} e.

Definition M (A : Type) : Type := state → res A * state.

Definition ret {A} (a : A) : M A := λ s, (Ok a, s).

Definition bind {A B} (m : M A) (k : A → M B) : M B :=
  λ s, match m s with
       | (Ok a, s') => k a s'
       | (Raised e, s') => (Raised e, s')
       end.

Definition raise {A} (e : exn) : M A := λ s, (Raised e, s).

Declare Scope handler_scope.
Delimit Scope handler_scope with handler.
Notation "x <- m ;; k" := (bind m (λ x, k))
  (at level 100, m at next level, right associativity) : handler_scope.
Notation "m ;; k" := (bind m (λ _, k))
  (at level 100, right associativity) : handler_scope.
Local Open Scope handler_scope.

(** An operation that raises what its pure part raises. *)
Definition lift {A} (r : exn + A) : M A :=
  match r with inl e => raise e | inr a => ret a end.

Definition db_do (c : db_call) : M unit :=
  λ s, (Ok tt, State (db s) (calls s ++ [c]) (out s) (log s)).

Definition read_db : M table := λ s, (Ok (db s), s).

Definition write_db (t : table) : M unit :=
  λ s, (Ok tt, State t (calls s) (out s) (log s)).

Definition http_do (c : http_call) : M unit :=
  λ s, (Ok tt, State (db s) (calls s) (out s ++ [c]) (log s)).

Definition logging_info (r : log_record) : M unit :=
  λ s, (Ok tt, State (db s) (calls s) (out s) (log s ++ [r])).

(** A handler run starts with nothing written and nothing logged. *)
Definition run {A} (m : M A) (t : table) : res A * state :=
  m (State t [] [] []).

(** ** The database functions of server.py *)

(** [save_crypto_commitment]: connect, execute the INSERT, commit, close. *)
Definition save_crypto_commitment (user_name crypto_commitment : json) : M unit :=
  db_do Connect ;;
  u <- lift (bind_param user_name) ;;
  c <- lift (bind_param crypto_commitment) ;;
  db_do (ExecInsert u c) ;;
  t <- read_db ;;
  t' <- lift (insert_row u c t) ;;
  write_db t' ;;
  db_do Commit ;;
  db_do Close.

(** [verify_crypto_commitment]: the commitment of the first row found for
    the user name, [None] when [fetchone] finds no row. *)
Definition verify_crypto_commitment (user_name : json) : M (option string) :=
  db_do Connect ;;
  u <- lift (bind_param user_name) ;;
  db_do (ExecSelectCommitment u) ;;
  t <- read_db ;;
  let stored_crypto_commitment := head (where_user_name u t) in
  db_do Close ;;
  match stored_crypto_commitment with
  | Some r => ret (Some (crypto_commitment r))
  | None => ret None
  end.

(** [user_exists]: whether [fetchone] finds a row for the user name. *)
Definition user_exists (user_name : json) : M bool :=
  db_do Connect ;;
  u <- lift (bind_param user_name) ;;
  db_do (ExecSelectOne u) ;;
  t <- read_db ;;
  let exists_ := match head (where_user_name u t) with
                 | Some _ => true
                 | None => false
                 end in
  db_do Close ;;
  ret exists_.

(** ** Logging *)

Definition log_system_resources (e : env) : M unit :=
  logging_info (CpuUsage (cpu_percent e)) ;;
  logging_info (RamUsage (virtual_memory_percent e)).

Definition log_request_time (start_time end_time : Q) (url : string) : M unit :=
  logging_info (RequestTime url (Qminus end_time start_time)).

(** ** Requests *)

Inductive method : Type := GET | POST.

(** The body of a request, by what lines 86-88 (and 116-118) make of it:
    reading [Content-Length] bytes and decoding them may raise, [json.loads]
    raises on text that is not JSON, and otherwise yields a value. *)
Inductive payload : Type :=
  | Unreadable
  | NotJson
  | Decoded (data : json).

Record request : Type := Request {
  command : method;
  path : string;
  body : payload
}.

Definition read_json (req : request) : M json :=
  match body req with
  | Unreadable => raise RequestReadError
  | NotJson => raise JSONDecodeError
  | Decoded data => ret data
  end.

(** The four lines every JSON reply consists of: [send_response(code)],
    [send_header('Content-type', 'application/json')], [end_headers()] and
    [wfile.write(json.dumps(v).encode())]. *)
Definition json_reply (code : Z) (v : json) : list http_call :=
  [ SendResponse code;
    SendHeader "Content-type" "application/json";
    EndHeaders;
    WfileWrite (JsonDumps v) ].

Definition send_json (code : Z) (v : json) : M unit :=
  http_do (SendResponse code) ;;
  http_do (SendHeader "Content-type" "application/json") ;;
  http_do EndHeaders ;;
  http_do (WfileWrite (JsonDumps v)).

(** The replies of the protocol, under the names the protocol gives to
    the outcomes. *)
Definition BadRequest_enroll : list http_call :=
  json_reply 400 (JObj {[ "error" := JStr "Missing username or crypto commitment" ]}).
Definition Conflict : list http_call :=
  json_reply 409 (JObj {[ "error" := JStr "User already exists" ]}).
Definition Created : list http_call :=
  json_reply 201
    (JObj {[ "message" := JStr "Crypto commitment and username saved successfully!" ]}).
Definition BadRequest_verify : list http_call :=
  json_reply 400 (JObj {[ "error" := JStr "Missing username" ]}).
Definition Authenticated : list http_call :=
  json_reply 200 (JObj {[ "message" := JStr "Login Successful" ]}).
Definition Unauthorized : list http_call :=
  json_reply 403 (JObj {[ "error" := JStr "Unauthorized" ]}).

(** ** The request handler *)

(** Lines 143-146: what [do_POST] does when it reaches its end. *)
Definition log_tail (e : env) (req : request) : M unit :=
  log_request_time (time_start e) (time_end e) (path req) ;;
  log_system_resources e.

(** [RequestHandler.do_POST]. A [return] inside a branch ends the handler
    there; a branch that does not return goes on to [log_tail]. *)
Definition do_POST (e : env) (req : request) : M unit :=
  if String.eqb (path req) "/enroll" then
    data <- read_json req ;;
    user_name <- lift (py_get data "user_name") ;;
    crypto_commitment <- lift (py_get data "crypto_commitment") ;;
    if py_not user_name || py_not crypto_commitment then
      send_json 400 (JObj {[ "error" := JStr "Missing username or crypto commitment" ]})
    else
      exists_ <- user_exists user_name ;;
      if exists_ : bool then
        send_json 409 (JObj {[ "error" := JStr "User already exists" ]})
      else
        save_crypto_commitment user_name crypto_commitment ;;
        send_json 201
          (JObj {[ "message" := JStr "Crypto commitment and username saved successfully!" ]}) ;;
        log_tail e req
  else if String.eqb (path req) "/verifyCommitment" then
    data <- read_json req ;;
    user_name <- lift (py_get data "user_name") ;;
    crypto_commitment <- lift (py_get data "crypto_commitment") ;;
    if py_not user_name then
      send_json 400 (JObj {[ "error" := JStr "Missing username" ]})
    else
      stored_crypto_commitment <- verify_crypto_commitment user_name ;;
      (if py_eq stored_crypto_commitment crypto_commitment then
         send_json 200 (JObj {[ "message" := JStr "Login Successful" ]})
       else
         send_json 403 (JObj {[ "error" := JStr "Unauthorized" ]})) ;;
      log_tail e req
  else
    log_tail e req.

(** [RequestHandler.do_GET]. *)
Definition do_GET (req : request) : M unit :=
  if String.eqb (path req) "/" then
    http_do (SendResponse 200) ;;
    http_do (SendHeader "Content-type" "text/html") ;;
    http_do EndHeaders ;;
    http_do (WfileWrite (Literal "Server is running"))
  else
    ret tt.

(** The server class calls the method named after the request's command. *)
Definition handle (e : env) (req : request) : M unit :=
  match command req with
  | GET => do_GET req
  | POST => do_POST e req
  end.

(** The table a handler run leaves behind, whether it returned or raised. *)
Definition db_after (e : env) (req : request) (t : table) : table :=
  db (snd (run (handle e req) t)).

(** The server loop started by [run()]: [HTTPServer] handles the requests
    one at a time, each on the table the previous one left. The result is
    the final table and what each handler wrote. *)
Fixpoint serve (reqs : list (env * request)) (t : table)
  : table * list (list http_call) :=
  match reqs with
  | [] => (t, [])
  | (e, req) :: reqs' =>
      let s := snd (run (handle e req) t) in
      let '(t', outs) := serve reqs' (db s) in
      (t', out s :: outs)
  end.

(** The status code of a reply: the argument of the first [send_response]. *)
Fixpoint status_code (o : list http_call) : option Z :=
  match o with
  | [] => None
  | SendResponse code :: _ => Some code
  | _ :: o' => status_code o'
  end.

(** The bodies written, in order. *)
Fixpoint response_body (o : list http_call) : list written :=
  match o with
  | [] => []
  | WfileWrite b :: o' => b :: response_body o'
  | _ :: o' => response_body o'
  end.

(** Requests as the client sends them. *)
Definition enroll_request (d : gmap string json) : request :=
  Request POST "/enroll" (Decoded (JObj d)).
Definition verify_request (d : gmap string json) : request :=
  Request POST "/verifyCommitment" (Decoded (JObj d)).

(** [{"user_name": u, "crypto_commitment": c}], the payload client.py builds. *)
Definition credentials (u c : string) : gmap string json :=
  {[ "user_name" := JStr u; "crypto_commitment" := JStr c ]}.

(** Readings used in the examples. *)
Definition env0 : env := Env 0 0 0 0.

(** What a handler run wrote on the response, and what it raised. *)
Definition reply (e : env) (req : request) (t : table) : list http_call :=
  out (snd (run (handle e req) t)).

Definition db_calls (e : env) (req : request) (t : table) : list db_call :=
  calls (snd (run (handle e req) t)).

Definition raised (e : env) (req : request) (t : table) : option exn :=
  match fst (run (handle e req) t) with
  | Ok _ => None
  | Raised x => Some x
  end.

(** ** Store predicates *)

(** The user name has a record. *)
Definition registered (u : string) (t : table) : Prop :=
  ∃ r, r ∈ t ∧ user_name r = u.

(** At most one record per user name. *)
Definition unique_user_names (t : table) : Prop :=
  NoDup (user_name <$> t).

(** No stored commitment is the empty string. *)
Definition commitments_nonempty (t : table) : Prop :=
  Forall (λ r, crypto_commitment r ≠ "") t.

(** ** Notions the properties are stated with *)

(** The three records a run that reaches lines 143-146 adds to the log. *)
Definition tail_log (e : env) (url : string) : list log_record :=
  [ RequestTime url (Qminus (time_end e) (time_start e));
    CpuUsage (cpu_percent e);
    RamUsage (virtual_memory_percent e) ].

(** A body that cannot be read, is not JSON, or is not an object: the
    exception leaves the handler before it has called anything. *)
Definition body_exception (b : payload) : option exn :=
  match b with
  | Unreadable => Some RequestReadError
  | NotJson => Some JSONDecodeError
  | Decoded (JObj _) => None
  | Decoded _ => Some AttributeError
  end.

(** A field that is missing from the object, is [null], or is the empty
    string. *)
Definition missing_or_empty (field : option json) : Prop :=
  field = None ∨ field = Some JNull ∨ field = Some (JStr "").

(** What a run shows apart from its log. *)
Definition observable (r : res unit * state)
  : res unit * table * list db_call * list http_call :=
  (fst r, db (snd r), calls (snd r), out (snd r)).

(** The tables the server can be on: the one [init_db] creates, and the one
    any request (any method, path, body and readings) leaves when handled
    on a reachable table. *)
Inductive reachable : table → Prop :=
  | reachable_init : reachable (init_db None)
  | reachable_handle (e : env) (req : request) (t : table) :
      reachable t → reachable (db_after e req t).

(** The invariant of the store: one record per user name at most, and no
    empty commitment. *)
Definition store_invariant (t : table) : Prop :=
  unique_user_names t ∧ commitments_nonempty t.

(** ** Enrollment handlers whose steps interleave

    The enrollment branch of [do_POST] makes two separate calls on the
    database, [user_exists] (line 100) and [save_crypto_commitment]
    (line 107), each on a connection of its own. A handler is followed
    through the points between these calls; a step runs the code up to the
    next point on the shared table. *)
Inductive thread : Type :=
  | Received (b : payload)                            (* at line 86 *)
  | Validated (user_name crypto_commitment : json)    (* at line 100 *)
  | Checked (user_name crypto_commitment : json)      (* at line 107 *)
  | Replied (o : list http_call)
  | Failed (x : exn).

Definition step_thread (th : thread) (t : table) : thread * table :=
  match th with
  | Received b =>
      match body_exception b, b with
      | Some x, _ => (Failed x, t)
      | None, Decoded (JObj d) =>
          let user_name := default JNull (d !! "user_name") in
          let crypto_commitment := default JNull (d !! "crypto_commitment") in
          if py_not user_name || py_not crypto_commitment
          then (Replied BadRequest_enroll, t)
          else (Validated user_name crypto_commitment, t)
      | None, _ => (th, t)
      end
  | Validated u c =>
      match run (user_exists u) t with
      | (Ok true, _) => (Replied Conflict, t)
      | (Ok false, _) => (Checked u c, t)
      | (Raised x, _) => (Failed x, t)
      end
  | Checked u c =>
      match run (save_crypto_commitment u c) t with
      | (Ok _, s) => (Replied Created, db s)
      | (Raised x, s) => (Failed x, db s)
      end
  | Replied _ | Failed _ => (th, t)
  end.

(** The handlers advance in the order a schedule names them. *)
Fixpoint interleave (schedule : list nat) (ths : list thread) (t : table)
  : list thread * table :=
  match schedule with
  | [] => (ths, t)
  | i :: schedule' =>
      match ths !! i with
      | Some th =>
          let '(th', t') := step_thread th t in
          interleave schedule' (<[i := th']> ths) t'
      | None => interleave schedule' ths t
      end
  end.

(** How a handler run ended. *)
Definition ended (e : env) (req : request) (t : table) : thread :=
  match raised e req t with
  | Some x => Failed x
  | None => Replied (reply e req t)
  end.

(** What a handler run passed to [logging.info]. *)
Definition handler_log (e : env) (req : request) (t : table) : list log_record :=
  log (snd (run (handle e req) t)).

(** The commitment [verify_crypto_commitment] returns for a user name given
    as a string, as a function of the table. *)
Definition lookup_commitment (u : string) (t : table) : option string :=
  crypto_commitment <$> head (filter (λ r, user_name r = u) t).

(** What [do_GET] writes for the path [/]: lines 151-154. *)
Definition Alive : list http_call :=
  [ SendResponse 200; SendHeader "Content-type" "text/html"; EndHeaders;
    WfileWrite (Literal "Server is running") ].

(** ** The client (src/client.py)

    The functions of [client.py] that talk to the two services. What is
    outside the program is an argument: the [network] answers each request
    the client sends, and [readings] are the values of [time.time()] and
    [psutil] during a call. *)
Module Client.

(** The body of a response, as [response.json()] sees it. *)
Inductive response_body : Type :=
  | IsJson (v : json)
  | NotJsonText.

(** What [requests.get] or [requests.post] comes back with: a
    [RequestException] (no connection, timeout, connection closed without a
    response) or a response. *)
Inductive http_result : Type :=
  | RequestFailed
  | Response (status : Z) (content : response_body).

(** A request the client sends. [data] is the value passed to [json.dumps]. *)
Inductive sent : Type :=
  | RequestsGet (url : string) (params : gmap string json)
  | RequestsPost (url : string) (headers : gmap string string) (data : json).

Definition network : Type := sent → http_result.

(** The exceptions of [requests.exceptions.RequestException] the code can
    meet, and the others. *)
Inductive request_exception : Type :=
  | ConnectionFailed
  | HTTPError (status : Z)
  | InvalidJSON.

Inductive exception : Type :=
  | RequestException (x : request_exception)
  | ValueError
  | TypeError
  | KeyError.

Inductive level : Type := INFO | ERROR.

(** The messages of the [logging] calls, with the values they format. *)
Inductive message : Type :=
  | CpuUsage (cpu_usage : Q)
  | RamUsage (ram_usage : Q)
  | RequestTime (url : string) (processing_time : Q)
  | EnrollmentSuccessful (m : json)
  | NoMessageEnrollment
  | ErrorEnrolling (x : request_exception)
  | FailedToGenerateSignIn
  | SignInSuccessful (m : json)
  | NoMessageSignIn
  | ErrorSigningIn (x : request_exception)
  | CommitmentNotFound
  | ErrorGenerating (x : request_exception).

(** The readings of one call of [enroll] or [sign_in]: the clock before
    and after the request, the resources before and after. *)
Record readings : Type := Readings {
  start_time : Q;
  end_time : Q;
  cpu_before : Q;
  ram_before : Q;
  cpu_after : Q;
  ram_after : Q
}.

Record state : Type := State {
  requests_sent : list sent;
  log : list (level * message)
}.

Inductive res (A : Type) : Type :=
  | Returned (a : A)
  | Raised (x : exception).
Arguments Returned {A} a.
Arguments Raised {A} x.

Definition C (A : Type) : Type := state → res A * state.

Definition ret {A} (a : A) : C A := λ s, (Returned a, s).

Definition bind {A B} (m : C A) (k : A → C B) : C B :=
  λ s, match m s with
       | (Returned a, s') => k a s'
       | (Raised x, s') => (Raised x, s')
       end.

Definition raise {A} (x : exception) : C A := λ s, (Raised x, s).

(** [try: m  except requests.exceptions.RequestException as e: h e]. *)
Definition try_except {A} (m : C A) (h : request_exception → C A) : C A :=
  λ s, match m s with
       | (Raised (RequestException x), s') => h x s'
       | r => r
       end.

Declare Scope client_scope.
Notation "x <- m ;; k" := (bind m (λ x, k))
  (at level 100, m at next level, right associativity) : client_scope.
Notation "m ;; k" := (bind m (λ _, k))
  (at level 100, right associativity) : client_scope.
Local Open Scope client_scope.

Definition logging_info (m : message) : C unit :=
  λ s, (Returned tt, State (requests_sent s) (log s ++ [(INFO, m)])).

Definition logging_error (m : message) : C unit :=
  λ s, (Returned tt, State (requests_sent s) (log s ++ [(ERROR, m)])).

Definition run {A} (m : C A) : res A * state := m (State [] []).

Section Requests.

(** Whether the [JSONDecodeError] of [response.json()] is a
    [RequestException], as in requests 2.27 and later, or a plain
    [ValueError], as before. *)
Variable json_error_is_request_exception : bool.

Variable net : network.

Definition send (r : sent) : C http_result :=
  λ s, (Returned (net r), State (requests_sent s ++ [r]) (log s)).

Definition requests_get (url : string) (params : gmap string json)
  : C (Z * response_body) :=
  r <- send (RequestsGet url params) ;;
  match r with
  | RequestFailed => raise (RequestException ConnectionFailed)
  | Response status content => ret (status, content)
  end.

Definition requests_post (url : string) (headers : gmap string string) (data : json)
  : C (Z * response_body) :=
  r <- send (RequestsPost url headers data) ;;
  match r with
  | RequestFailed => raise (RequestException ConnectionFailed)
  | Response status content => ret (status, content)
  end.

(** [response.raise_for_status()]: an [HTTPError] for a 4xx or 5xx status. *)
Definition raise_for_status (response : Z * response_body) : C unit :=
  if (400 <=? fst response) && (fst response <? 600)
  then raise (RequestException (HTTPError (fst response)))
  else ret tt.

(** [response.json()]. *)
Definition response_json (response : Z * response_body) : C json :=
  match snd response with
  | IsJson v => ret v
  | NotJsonText =>
      if json_error_is_request_exception
      then raise (RequestException InvalidJSON)
      else raise ValueError
  end.

(** [key in data]: a key of a dict, an element of a list, a substring of a
    str; [TypeError] on a value that is not iterable. *)
Definition py_in (key : string) (data : json) : C bool :=
  match data with
  | JObj d => ret (bool_decide (is_Some (d !! key)))
  | JArr l =>
      ret (existsb (λ v, match v with JStr s => String.eqb s key | _ => false end) l)
  | JStr s =>
      ret (match String.index 0 key s with Some _ => true | None => false end)
  | JNull | JBool _ | JInt _ => raise TypeError
  end.

(** [data[key]] for a string [key]. *)
Definition py_getitem (data : json) (key : string) : C json :=
  match data with
  | JObj d => match d !! key with Some v => ret v | None => raise KeyError end
  | _ => raise TypeError
  end.

Definition log_system_resources (cpu_usage ram_usage : Q) : C unit :=
  logging_info (CpuUsage cpu_usage) ;;
  logging_info (RamUsage ram_usage).

Definition log_request_time (start_time end_time : Q) (url : string) : C unit :=
  logging_info (RequestTime url (Qminus end_time start_time)).

(** [generate_crypto_commitment]; the result [None] is [JNull]. *)
Definition generate_crypto_commitment (user_secret : Z) : C json :=
  let url := "http://localhost:8080/generateCommitment" in
  let params : gmap string json := {[ "user_secret" := JInt user_secret ]} in
  try_except
    (response <- requests_get url params ;;
     raise_for_status response ;;
     data <- response_json response ;;
     found <- py_in "crypto_commitment" data ;;
     if found : bool then py_getitem data "crypto_commitment"
     else (logging_error CommitmentNotFound ;; ret JNull))
    (λ e, logging_error (ErrorGenerating e) ;; ret JNull).


(** [sign_in]. *)
Definition sign_in (rd : readings) (user_name : string) (user_secret : Z) : C unit :=
  crypto_commitment <- generate_crypto_commitment user_secret ;;
  if py_not crypto_commitment then
    logging_error FailedToGenerateSignIn
  else
    log_system_resources (cpu_before rd) (ram_before rd) ;;
    let server_url := "http://localhost:5001/verifyCommitment" in
    let headers : gmap string string := {[ "Content-Type" := "application/json" ]} in
    let payload :=
      JObj {[ "user_name" := JStr user_name; "crypto_commitment" := crypto_commitment ]} in
    try_except
      (response <- requests_post server_url headers payload ;;
       raise_for_status response ;;
       log_request_time (start_time rd) (end_time rd) server_url ;;
       log_system_resources (cpu_after rd) (ram_after rd) ;;
       response_data <- response_json response ;;
       found <- py_in "message" response_data ;;
       if found : bool then
         m <- py_getitem response_data "message" ;;
         logging_info (SignInSuccessful m)
       else logging_error NoMessageSignIn)
      (λ e, logging_error (ErrorSigningIn e)).

End Requests.

End Client.

(** ** The client against the server *)

(** What the client receives for a handler run: the status and the body
    the handler wrote, or a failed request when the handler wrote nothing
    (it raised, or it fell through without a reply) and the connection is
    closed. *)
Definition over_http (r : res unit * state) : Client.http_result :=
  match fst r, status_code (out (snd r)), response_body (out (snd r)) with
  | Ok _, Some code, [JsonDumps v] => Client.Response code (Client.IsJson v)
  | Ok _, Some code, _ => Client.Response code Client.NotJsonText
  | _, _, _ => Client.RequestFailed
  end.

(** The network as the client sees it when the authentication server runs
    on the table [t]: a POST for port 5001 is handled by [do_POST] on the
    decoded payload, and a GET gets the answer of the commitment service. *)
Definition served_by (e : env) (t : table) (generator : Client.http_result)
  : Client.network :=
  λ r, match r with
       | Client.RequestsGet _ _ => generator
       | Client.RequestsPost url _ data =>
           if String.eqb url "http://localhost:5001/enroll" then
             over_http (run (handle e (Request POST "/enroll" (Decoded data))) t)
           else if String.eqb url "http://localhost:5001/verifyCommitment" then
             over_http (run (handle e (Request POST "/verifyCommitment" (Decoded data))) t)
           else Client.RequestFailed
       end.

(** The request [generate_crypto_commitment] sends. *)
Definition generator_request (user_secret : Z) : Client.sent :=
  Client.RequestsGet "http://localhost:8080/generateCommitment"
    {[ "user_secret" := JInt user_secret ]}.

(** * Properties *)

(** The scenario of the protocol description, on the server loop. *)
Example scenario :
  serve [ (env0, enroll_request (credentials "alice" "AAA111"));
          (env0, verify_request (credentials "alice" "AAA111"));
          (env0, verify_request (credentials "alice" "wrong"));
          (env0, enroll_request (credentials "alice" "BBB222"));
          (env0, verify_request (credentials "bob" "anything")) ] []
  = ([Row 1 "alice" "AAA111"],
     [Created; Authenticated; Unauthorized; Conflict; Unauthorized]).
Proof. vm_compute. reflexivity. Qed.

(** ** The database functions *)

Ltac monad_unfold :=
  unfold bind, ret, raise, lift, db_do, http_do, read_db, write_db,
    logging_info; simpl.

Lemma user_exists_spec (v : json) (s : state) :
  user_exists v s =
  match bind_param v with
  | inl x => (Raised x, State (db s) (calls s ++ [Connect]) (out s) (log s))
  | inr p =>
      (Ok (bool_decide (where_user_name p (db s) ≠ [])),
       State (db s) (calls s ++ [Connect; ExecSelectOne p; Close]) (out s) (log s))
  end.
Proof.
  unfold user_exists. monad_unfold.
  destruct (bind_param v) as [x|p]; simpl; [reflexivity|].
  rewrite <- !app_assoc. simpl.
  destruct (where_user_name p (db s)); reflexivity.
Qed.

Lemma verify_crypto_commitment_spec (v : json) (s : state) :
  verify_crypto_commitment v s =
  match bind_param v with
  | inl x => (Raised x, State (db s) (calls s ++ [Connect]) (out s) (log s))
  | inr p =>
      (Ok (crypto_commitment <$> head (where_user_name p (db s))),
       State (db s) (calls s ++ [Connect; ExecSelectCommitment p; Close]) (out s) (log s))
  end.
Proof.
  unfold verify_crypto_commitment. monad_unfold.
  destruct (bind_param v) as [x|p]; simpl; [reflexivity|].
  rewrite <- !app_assoc. simpl.
  destruct (where_user_name p (db s)); reflexivity.
Qed.

Lemma save_crypto_commitment_spec (u c : json) (s : state) :
  save_crypto_commitment u c s =
  match bind_param u with
  | inl x => (Raised x, State (db s) (calls s ++ [Connect]) (out s) (log s))
  | inr pu =>
    match bind_param c with
    | inl x => (Raised x, State (db s) (calls s ++ [Connect]) (out s) (log s))
    | inr pc =>
      match insert_row pu pc (db s) with
      | inl x =>
          (Raised x,
           State (db s) (calls s ++ [Connect; ExecInsert pu pc]) (out s) (log s))
      | inr t' =>
          (Ok tt,
           State t' (calls s ++ [Connect; ExecInsert pu pc; Commit; Close])
             (out s) (log s))
      end
    end
  end.
Proof.
  unfold save_crypto_commitment. monad_unfold.
  destruct (bind_param u) as [x|pu]; simpl; [reflexivity|].
  destruct (bind_param c) as [x|pc]; simpl; [reflexivity|].
  destruct (insert_row pu pc (db s)) as [x|t']; simpl;
    rewrite <- !app_assoc; reflexivity.
Qed.

Lemma send_json_spec (code : Z) (v : json) (s : state) :
  send_json code v s =
  (Ok tt, State (db s) (calls s) (out s ++ json_reply code v) (log s)).
Proof.
  unfold send_json, json_reply. monad_unfold. rewrite <- !app_assoc. reflexivity.
Qed.

Lemma log_tail_spec (e : env) (req : request) (s : state) :
  log_tail e req s =
  (Ok tt,
   State (db s) (calls s) (out s)
     (log s ++ [ RequestTime (path req) (Qminus (time_end e) (time_start e));
                 CpuUsage (cpu_percent e);
                 RamUsage (virtual_memory_percent e) ])).
Proof.
  unfold log_tail, log_request_time, log_system_resources. monad_unfold.
  rewrite <- !app_assoc. reflexivity.
Qed.

(** ** The handler, branch by branch *)

Ltac handler_step :=
  first
    [ rewrite user_exists_spec
    | rewrite verify_crypto_commitment_spec
    | rewrite save_crypto_commitment_spec
    | rewrite send_json_spec
    | rewrite log_tail_spec ]; simpl.

(** /verifyCommitment on a decoded object. *)
Lemma do_POST_verify (e : env) (d : gmap string json) (t : table) :
  run (do_POST e (verify_request d)) t =
  let user_name := default JNull (d !! "user_name") in
  let supplied := default JNull (d !! "crypto_commitment") in
  if py_not user_name then (Ok tt, State t [] BadRequest_verify [])
  else
    match bind_param user_name with
    | inl x => (Raised x, State t [Connect] [] [])
    | inr p =>
        (Ok tt,
         State t [Connect; ExecSelectCommitment p; Close]
           (if py_eq (crypto_commitment <$> head (where_user_name p t)) supplied
            then Authenticated else Unauthorized)
           (tail_log e "/verifyCommitment"))
    end.
Proof.
  unfold run, do_POST, verify_request, read_json, py_get; simpl.
  unfold bind at 1 2 3; simpl.
  destruct (py_not (default JNull (d !! "user_name"))).
  - handler_step. reflexivity.
  - unfold bind at 1. handler_step.
    destruct (bind_param (default JNull (d !! "user_name"))) as [x|p];
      [reflexivity|].
    unfold bind.
    destruct (py_eq _ _); repeat handler_step; reflexivity.
Qed.

(** /enroll on a decoded object. *)
Lemma do_POST_enroll (e : env) (d : gmap string json) (t : table) :
  run (do_POST e (enroll_request d)) t =
  let user_name := default JNull (d !! "user_name") in
  let crypto_commitment := default JNull (d !! "crypto_commitment") in
  if py_not user_name || py_not crypto_commitment
  then (Ok tt, State t [] BadRequest_enroll [])
  else
    match bind_param user_name with
    | inl x => (Raised x, State t [Connect] [] [])
    | inr pu =>
        if bool_decide (where_user_name pu t ≠ [])
        then (Ok tt, State t [Connect; ExecSelectOne pu; Close] Conflict [])
        else
          match bind_param crypto_commitment with
          | inl x =>
              (Raised x, State t [Connect; ExecSelectOne pu; Close; Connect] [] [])
          | inr pc =>
              match insert_row pu pc t with
              | inl x =>
                  (Raised x,
                   State t [Connect; ExecSelectOne pu; Close; Connect; ExecInsert pu pc]
                     [] [])
              | inr t' =>
                  (Ok tt,
                   State t'
                     [Connect; ExecSelectOne pu; Close;
                      Connect; ExecInsert pu pc; Commit; Close]
                     Created (tail_log e "/enroll"))
              end
          end
    end.
Proof.
  unfold run, do_POST, enroll_request, read_json, py_get; simpl.
  unfold bind at 1 2 3; simpl.
  destruct (py_not (default JNull (d !! "user_name")) ||
            py_not (default JNull (d !! "crypto_commitment"))).
  - handler_step. reflexivity.
  - unfold bind at 1. handler_step.
    destruct (bind_param (default JNull (d !! "user_name"))) as [x|pu] eqn:Hu;
      [reflexivity|].
    destruct (bool_decide (where_user_name pu t ≠ [])).
    + handler_step. reflexivity.
    + unfold bind at 1. handler_step. rewrite Hu.
      destruct (bind_param (default JNull (d !! "crypto_commitment"))) as [x|pc];
        [reflexivity|].
      destruct (insert_row pu pc t) as [x|t']; [reflexivity|].
      unfold bind. repeat handler_step. reflexivity.
Qed.

Lemma do_POST_body_raises (e : env) (req : request) (x : exn) (t : table) :
  path req = "/enroll" ∨ path req = "/verifyCommitment" →
  body_exception (body req) = Some x →
  run (do_POST e req) t = (Raised x, State t [] [] []).
Proof.
  intros Hpath Hbody. unfold run, do_POST, read_json.
  destruct req as [m p b]; simpl in *.
  destruct Hpath as [-> | ->]; simpl;
    destruct b as [ | | [ | | | | | ]]; simpl in Hbody;
    try discriminate; injection Hbody as <-; reflexivity.
Qed.

(** Any other path: only the log is written. *)
Lemma do_POST_other_path (e : env) (req : request) (t : table) :
  path req ≠ "/enroll" → path req ≠ "/verifyCommitment" →
  run (do_POST e req) t = (Ok tt, State t [] [] (tail_log e (path req))).
Proof.
  intros H1 H2. unfold run, do_POST.
  destruct (String.eqb_spec (path req) "/enroll"); [contradiction|].
  destruct (String.eqb_spec (path req) "/verifyCommitment"); [contradiction|].
  rewrite log_tail_spec. reflexivity.
Qed.

Lemma do_GET_spec (req : request) (t : table) :
  run (do_GET req) t =
  if String.eqb (path req) "/"
  then (Ok tt,
        State t []
          [ SendResponse 200; SendHeader "Content-type" "text/html"; EndHeaders;
            WfileWrite (Literal "Server is running") ] [])
  else (Ok tt, State t [] [] []).
Proof.
  unfold run, do_GET. destruct (String.eqb (path req) "/"); reflexivity.
Qed.

(** Every POST request falls under one of the cases above. *)
Lemma request_cases (req : request) :
  (path req ≠ "/enroll" ∧ path req ≠ "/verifyCommitment")
  ∨ (∃ x, (path req = "/enroll" ∨ path req = "/verifyCommitment")
          ∧ body_exception (body req) = Some x)
  ∨ (∃ d, req = Request (command req) "/enroll" (Decoded (JObj d)))
  ∨ (∃ d, req = Request (command req) "/verifyCommitment" (Decoded (JObj d))).
Proof.
  destruct req as [m p b]; simpl.
  destruct (decide (p = "/enroll")) as [-> | H1].
  - right. destruct (body_exception b) as [x|] eqn:Hb.
    + left. eauto.
    + right. left. destruct b as [ | | [ | | | | | d]]; try discriminate. eauto.
  - destruct (decide (p = "/verifyCommitment")) as [-> | H2].
    + right. destruct (body_exception b) as [x|] eqn:Hb.
      * left. eauto.
      * right. right. destruct b as [ | | [ | | | | | d]]; try discriminate. eauto.
    + left. auto.
Qed.

(** ** Looking a user name up *)

Lemma where_user_name_text (u : string) (t : table) :
  where_user_name (SqlText u) t = filter (λ r, user_name r = u) t.
Proof. reflexivity. Qed.

Lemma registered_filter (u : string) (t : table) :
  registered u t ↔ filter (λ r, user_name r = u) t ≠ [].
Proof.
  split.
  - intros (r & Hr & Hu) Hnil.
    assert (r ∈ filter (λ r, user_name r = u) t) as Hin
      by (apply list_elem_of_filter; auto).
    rewrite Hnil in Hin. inversion Hin.
  - intros Hne. destruct (filter (λ r, user_name r = u) t) as [ | r l] eqn:Hf;
      [contradiction|].
    assert (r ∈ filter (λ r, user_name r = u) t) as Hin
      by (rewrite Hf; left).
    apply list_elem_of_filter in Hin as [Hu Hr]. exists r. auto.
Qed.

Lemma unregistered_filter (u : string) (t : table) :
  ¬ registered u t → filter (λ r, user_name r = u) t = [].
Proof.
  intros Hn. destruct (filter (λ r, user_name r = u) t) as [ | r l] eqn:Hf;
    [reflexivity|].
  exfalso. apply Hn. apply registered_filter. rewrite Hf. discriminate.
Qed.

(** With at most one record per user name, the row a lookup returns is the
    record of that user. *)
Lemma unique_lookup (r : row) (t : table) :
  unique_user_names t → r ∈ t →
  filter (λ r', user_name r' = user_name r) t = [r].
Proof.
  unfold unique_user_names. induction t as [ | r0 t IH]; intros Hnd Hin.
  - inversion Hin.
  - rewrite fmap_cons in Hnd. apply NoDup_cons in Hnd as [Hfresh Hnd].
    rewrite filter_cons. apply elem_of_cons in Hin as [-> | Hin].
    + rewrite decide_True by reflexivity. f_equal.
      apply unregistered_filter. intros (r' & Hr' & Hu).
      apply Hfresh. rewrite <- Hu. apply list_elem_of_fmap. eauto.
    + rewrite decide_False; [auto|].
      intros Hu. apply Hfresh. rewrite Hu. apply list_elem_of_fmap. eauto.
Qed.

Lemma nonempty_string_truthy (s : string) : s ≠ "" → py_not (JStr s) = false.
Proof. intros H. simpl. destruct (String.eqb_spec s ""); congruence. Qed.

Lemma reply_distinct (c1 c2 : Z) (v1 v2 : json) :
  c1 ≠ c2 → json_reply c1 v1 ≠ json_reply c2 v2.
Proof. intros Hne Heq. injection Heq as Hc _. contradiction. Qed.

(** ** Verification *)

(** A registered-or-not user name that is a non-empty string: the reply is
    decided by comparing what the lookup returns with what was supplied. *)
Lemma verify_string_user (e : env) (d : gmap string json) (u : string) (t : table) :
  d !! "user_name" = Some (JStr u) → u ≠ "" →
  run (do_POST e (verify_request d)) t =
  (Ok tt,
   State t [Connect; ExecSelectCommitment (SqlText u); Close]
     (if py_eq (crypto_commitment <$> head (filter (λ r, user_name r = u) t))
               (default JNull (d !! "crypto_commitment"))
      then Authenticated else Unauthorized)
     (tail_log e "/verifyCommitment")).
Proof.
  intros Hd Hu. rewrite do_POST_verify. rewrite Hd. cbv zeta.
  change (default JNull (Some (JStr u))) with (JStr u).
  rewrite (nonempty_string_truthy u Hu). reflexivity.
Qed.

(** C1, on the code: a verification request for a user name that was never
    enrolled, sent without a [crypto_commitment] field, is answered
    200 "Login Successful" and not 403 "Unauthorized". The lookup returns
    [None], the missing field reads as [None], and the handler compares the
    two for equality. *)
Theorem verify_unregistered_without_commitment :
  ¬ registered "bob" (init_db None)
  ∧ reply env0 (verify_request {[ "user_name" := JStr "bob" ]}) (init_db None)
    = Authenticated
  ∧ status_code (reply env0 (verify_request {[ "user_name" := JStr "bob" ]})
                   (init_db None)) = Some 200.
Proof.
  split.
  - intros (r & Hr & _). inversion Hr.
  - split; vm_compute; reflexivity.
Qed.

(** For an unregistered user the handler answers Unauthorized exactly when
    a commitment is supplied; without one it answers Authenticated. *)
Lemma verify_unregistered (e : env) (d : gmap string json) (u : string) (t : table) :
  d !! "user_name" = Some (JStr u) → u ≠ "" → ¬ registered u t →
  reply e (verify_request d) t =
  match default JNull (d !! "crypto_commitment") with
  | JNull => Authenticated
  | _ => Unauthorized
  end.
Proof.
  intros Hd Hu Hn. unfold reply, handle. simpl.
  rewrite (verify_string_user e d u t Hd Hu). simpl.
  rewrite (unregistered_filter u t Hn). simpl.
  destruct (default JNull (d !! "crypto_commitment")); reflexivity.
Qed.

(** C2: when the store holds one record per user name and a record with
    user name [u] and commitment [s], a verification request for the
    non-empty [u] is answered Authenticated if and only if the supplied
    commitment is the string [s], character for character, and is answered
    Unauthorized otherwise (a missing commitment included). *)
Theorem verify_registered_iff_equal
    (e : env) (d : gmap string json) (i : Z) (u s : string) (t : table) :
  unique_user_names t → Row i u s ∈ t → u ≠ "" →
  d !! "user_name" = Some (JStr u) →
  let c := default JNull (d !! "crypto_commitment") in
  (reply e (verify_request d) t = Authenticated ↔ c = JStr s)
  ∧ (c ≠ JStr s → reply e (verify_request d) t = Unauthorized).
Proof.
  intros Huniq Hin Hu Hd c. unfold reply, handle. simpl.
  rewrite (verify_string_user e d u t Hd Hu). simpl.
  change u with (user_name (Row i u s)).
  rewrite (unique_lookup _ t Huniq Hin). simpl.
  fold c. destruct c as [ | b | z | s' | l | d'];
    try (split; [split; [intros H; exfalso; revert H; apply not_eq_sym, reply_distinct; lia
                        | discriminate]
                | reflexivity]).
  simpl. destruct (String.eqb_spec s s') as [-> | Hne].
  - split; [split; reflexivity | congruence].
  - split; [split | reflexivity].
    + intros H. exfalso. revert H. apply not_eq_sym, reply_distinct. lia.
    + intros H. congruence.
Qed.

Lemma verify_registered_iff_equal_witness :
  let t := [Row 1 "alice" "AAA111"] in
  (reply env0 (verify_request (credentials "alice" "AAA111")) t = Authenticated
   ↔ JStr "AAA111" = JStr "AAA111")
  ∧ (JStr "AAA111" ≠ JStr "AAA111" →
     reply env0 (verify_request (credentials "alice" "AAA111")) t = Unauthorized).
Proof.
  apply (verify_registered_iff_equal env0 (credentials "alice" "AAA111")
           1 "alice" "AAA111" [Row 1 "alice" "AAA111"]).
  - unfold unique_user_names. simpl. apply NoDup_singleton.
  - apply list_elem_of_singleton. reflexivity.
  - discriminate.
  - reflexivity.
Defined.

(** ** Enrollment *)

Lemma missing_or_empty_falsy (field : option json) :
  missing_or_empty field → py_not (default JNull field) = true.
Proof. intros [-> | [-> | ->]]; reflexivity. Qed.

(** C6: an enrollment request whose user name or commitment is missing or
    empty is answered 400 BadRequest; the handler makes no call on the
    database and the table is what it was. *)
Theorem enroll_missing_field_bad_request
    (e : env) (d : gmap string json) (t : table) :
  missing_or_empty (d !! "user_name")
  ∨ missing_or_empty (d !! "crypto_commitment") →
  reply e (enroll_request d) t = BadRequest_enroll
  ∧ status_code (reply e (enroll_request d) t) = Some 400
  ∧ db_calls e (enroll_request d) t = []
  ∧ db_after e (enroll_request d) t = t.
Proof.
  intros H. unfold reply, db_calls, db_after, handle. simpl.
  rewrite do_POST_enroll. cbv zeta.
  assert (py_not (default JNull (d !! "user_name"))
          || py_not (default JNull (d !! "crypto_commitment")) = true) as ->.
  { apply orb_true_iff.
    destruct H as [H | H]; [left | right]; apply missing_or_empty_falsy, H. }
  repeat split.
Qed.

Lemma enroll_missing_field_bad_request_witness :
  reply env0 (enroll_request (credentials "alice" "")) [] = BadRequest_enroll
  ∧ status_code (reply env0 (enroll_request (credentials "alice" "")) [])
    = Some 400
  ∧ db_calls env0 (enroll_request (credentials "alice" "")) [] = []
  ∧ db_after env0 (enroll_request (credentials "alice" "")) [] = [].
Proof.
  apply (enroll_missing_field_bad_request env0 (credentials "alice" "") []).
  right. right. right. reflexivity.
Defined.

(** C4 as stated fails for an empty commitment: with "alice" enrolled, an
    enrollment request for "alice" with the commitment [""] is answered
    BadRequest, which is not Conflict. *)
Lemma enroll_registered_empty_commitment :
  let t := [Row 1 "alice" "AAA111"] in
  registered "alice" t
  ∧ reply env0 (enroll_request (credentials "alice" "")) t = BadRequest_enroll
  ∧ reply env0 (enroll_request (credentials "alice" "")) t ≠ Conflict.
Proof.
  split; [| split].
  - exists (Row 1 "alice" "AAA111"). split; [left | reflexivity].
  - vm_compute. reflexivity.
  - assert (reply env0 (enroll_request (credentials "alice" ""))
              [Row 1 "alice" "AAA111"] = BadRequest_enroll) as ->
      by (vm_compute; reflexivity).
    apply reply_distinct. lia.
Qed.

(** An enrollment request for a registered user name. *)
Lemma enroll_registered_conflict_aux
    (e : env) (d : gmap string json) (u : string) (t : table) :
  registered u t → u ≠ "" →
  d !! "user_name" = Some (JStr u) →
  reply e (enroll_request d) t =
    (if py_not (default JNull (d !! "crypto_commitment"))
     then BadRequest_enroll else Conflict)
  ∧ db_after e (enroll_request d) t = t.
Proof.
  intros Hreg Hu Hd. unfold reply, db_after, handle. simpl.
  rewrite do_POST_enroll. rewrite Hd. cbv zeta.
  change (default JNull (Some (JStr u))) with (JStr u).
  rewrite (nonempty_string_truthy u Hu). rewrite orb_false_l.
  destruct (py_not (default JNull (d !! "crypto_commitment"))); [split; reflexivity|].
  change (bind_param (JStr u)) with (@inr exn _ (SqlText u)). cbv iota beta.
  rewrite where_user_name_text.
  rewrite bool_decide_eq_true_2 by (apply registered_filter, Hreg).
  split; reflexivity.
Qed.

(** C4, amended: when the store has a record for the non-empty user name
    [u], an enrollment request for [u] is answered Conflict whenever a
    non-empty commitment is supplied (BadRequest when it is missing or
    empty), and the table is left exactly as it was. *)
Theorem enroll_registered_conflict
    (e : env) (d : gmap string json) (u : string) (t : table) :
  registered u t → u ≠ "" →
  d !! "user_name" = Some (JStr u) →
  reply e (enroll_request d) t =
    (if py_not (default JNull (d !! "crypto_commitment"))
     then BadRequest_enroll else Conflict)
  ∧ db_after e (enroll_request d) t = t.
Proof. apply enroll_registered_conflict_aux. Qed.

Lemma enroll_registered_conflict_witness :
  let t := [Row 1 "alice" "AAA111"] in
  reply env0 (enroll_request (credentials "alice" "BBB222")) t = Conflict
  ∧ db_after env0 (enroll_request (credentials "alice" "BBB222")) t = t.
Proof.
  apply (enroll_registered_conflict env0 (credentials "alice" "BBB222") "alice"
           [Row 1 "alice" "AAA111"]).
  - exists (Row 1 "alice" "AAA111"). split; [left | reflexivity].
  - discriminate.
  - reflexivity.
Defined.

(** ** Requests that are not served *)




(** C10: a POST whose path is neither /enroll nor /verifyCommitment, and a
    GET whose path is not /, write nothing on the response (no status code,
    no body), make no call on the database and leave the table as it was. *)
Theorem unknown_path_silent (e : env) (req : request) (t : table) :
  (command req = POST ∧ path req ≠ "/enroll" ∧ path req ≠ "/verifyCommitment")
  ∨ (command req = GET ∧ path req ≠ "/") →
  reply e req t = []
  ∧ status_code (reply e req t) = None
  ∧ response_body (reply e req t) = []
  ∧ db_calls e req t = []
  ∧ db_after e req t = t.
Proof.
  intros [(Hm & H1 & H2) | (Hm & H1)];
    unfold reply, db_calls, db_after, handle; rewrite Hm.
  - rewrite (do_POST_other_path e req t H1 H2). repeat split.
  - rewrite do_GET_spec.
    destruct (String.eqb_spec (path req) "/"); [contradiction|]. repeat split.
Qed.

Lemma unknown_path_silent_witness :
  reply env0 (Request POST "/login" NotJson) [Row 1 "alice" "AAA111"] = []
  ∧ status_code (reply env0 (Request POST "/login" NotJson)
                   [Row 1 "alice" "AAA111"]) = None
  ∧ response_body (reply env0 (Request POST "/login" NotJson)
                     [Row 1 "alice" "AAA111"]) = []
  ∧ db_calls env0 (Request POST "/login" NotJson) [Row 1 "alice" "AAA111"] = []
  ∧ db_after env0 (Request POST "/login" NotJson) [Row 1 "alice" "AAA111"]
    = [Row 1 "alice" "AAA111"].
Proof.
  apply (unknown_path_silent env0 (Request POST "/login" NotJson)
           [Row 1 "alice" "AAA111"]).
  left. repeat split; discriminate.
Defined.

(** ** The environment does not reach the reply *)

Lemma handle_env_irrelevant (e1 e2 : env) (req : request) (t : table) :
  observable (run (handle e1 req) t) = observable (run (handle e2 req) t).
Proof.
  unfold handle. destruct (command req) eqn:Hm; [reflexivity|].
  destruct (request_cases req) as [[H1 H2] | [(x & Hp & Hb) | [[d Hd] | [d Hd]]]].
  - rewrite !do_POST_other_path by assumption. reflexivity.
  - rewrite !(do_POST_body_raises _ req x t Hp Hb). reflexivity.
  - rewrite Hd, Hm. fold (enroll_request d). rewrite !do_POST_enroll. cbv zeta.
    repeat (case_match; try reflexivity).
  - rewrite Hd, Hm. fold (verify_request d). rewrite !do_POST_verify. cbv zeta.
    repeat (case_match; try reflexivity).
Qed.

(** C9: the handler is deterministic in the table and the request. Two
    runs on the same table and the same request, whatever the clock and the
    resource readings of each, write the same calls on the response (hence
    the same status code and the same body), raise the same exception if
    any, and leave the same table. *)
Theorem handler_deterministic (e1 e2 : env) (req : request) (t : table) :
  status_code (reply e1 req t) = status_code (reply e2 req t)
  ∧ response_body (reply e1 req t) = response_body (reply e2 req t)
  ∧ reply e1 req t = reply e2 req t
  ∧ raised e1 req t = raised e2 req t
  ∧ db_after e1 req t = db_after e2 req t.
Proof.
  pose proof (handle_env_irrelevant e1 e2 req t) as H.
  unfold observable in H. injection H as Hres Hdb _ Hout.
  unfold reply, raised, db_after. rewrite Hres, Hdb, Hout. repeat split.
Qed.

(** ** Verification only reads *)

Lemma verify_db_unchanged (e : env) (req : request) (t : table) :
  command req = POST → path req = "/verifyCommitment" → db_after e req t = t.
Proof.
  intros Hm Hp. unfold db_after, handle. rewrite Hm.
  destruct (body_exception (body req)) as [x|] eqn:Hb.
  - rewrite (do_POST_body_raises e req x t) by auto. reflexivity.
  - destruct req as [m p b]. simpl in *. subst m p.
    destruct b as [ | | [ | | | | | d]]; try discriminate.
    fold (verify_request d). rewrite do_POST_verify. cbv zeta.
    repeat (case_match; try reflexivity).
Qed.

(** C7: a verification request leaves the table as it was, and the same
    request repeated any number of times, with no enrollment in between,
    gets the same reply every time: the server loop run on the repetitions
    ends on the table it started from and every reply is the first one. *)
Theorem verify_read_only_repeatable
    (e : env) (envs : list env) (req : request) (t : table) :
  command req = POST → path req = "/verifyCommitment" →
  db_after e req t = t
  ∧ serve ((λ e', (e', req)) <$> envs) t
    = (t, replicate (length envs) (reply e req t)).
Proof.
  intros Hm Hp. split; [apply verify_db_unchanged; assumption|].
  induction envs as [ | e' envs IH]; [reflexivity|].
  rewrite fmap_cons. simpl.
  pose proof (verify_db_unchanged e' req t Hm Hp) as Hdb.
  unfold db_after in Hdb. rewrite Hdb. rewrite IH.
  f_equal. f_equal.
  pose proof (handle_env_irrelevant e' e req t) as H.
  unfold observable in H. injection H as _ _ _ Hout. exact Hout.
Qed.

Lemma verify_read_only_repeatable_witness :
  let t := [Row 1 "alice" "AAA111"] in
  let req := verify_request (credentials "alice" "AAA111") in
  db_after env0 req t = t
  ∧ serve [(Env 1 2 3 4, req); (Env 5 6 7 8, req); (env0, req)] t
    = (t, [reply env0 req t; reply env0 req t; reply env0 req t]).
Proof.
  apply (verify_read_only_repeatable env0 [Env 1 2 3 4; Env 5 6 7 8; env0]
           (verify_request (credentials "alice" "AAA111"))
           [Row 1 "alice" "AAA111"]); reflexivity.
Defined.

(** ** Reachable tables *)

Lemma decimal_nonempty (z : Z) : decimal z ≠ "".
Proof.
  unfold decimal, NilZero.string_of_int.
  destruct (Z.to_int z) as [d | d]; [|discriminate].
  destruct d; discriminate.
Qed.

(** What passes the handler's [not crypto_commitment] test and can be bound
    is stored as a non-empty text. *)
Lemma truthy_text_nonempty (v : json) (p : sqlval) (s : string) :
  py_not v = false → bind_param v = inr p → text_affinity p = SqlText s →
  s ≠ "".
Proof.
  intros Hv Hp Hs. destruct v as [ | b | z | s' | l | d]; simpl in *;
    try discriminate.
  - injection Hp as <-. simpl in Hs. injection Hs as <-. apply decimal_nonempty.
  - destruct ((- 2 ^ 63 <=? z) && (z <? 2 ^ 63)); [|discriminate].
    injection Hp as <-. simpl in Hs. injection Hs as <-. apply decimal_nonempty.
  - injection Hp as <-. simpl in Hs. injection Hs as <-.
    destruct (String.eqb_spec s' ""); congruence.
Qed.

Lemma insert_row_inv (pu pc : sqlval) (t t' : table) :
  insert_row pu pc t = inr t' →
  ∃ su sc, text_affinity pu = SqlText su ∧ text_affinity pc = SqlText sc
           ∧ t' = t ++ [Row (next_row_id t) su sc].
Proof.
  unfold insert_row. intros H.
  destruct (text_affinity pu) as [ | | su]; try discriminate.
  destruct (text_affinity pc) as [ | | sc]; try discriminate.
  injection H as <-. eauto.
Qed.

Lemma no_row_fresh (pu : sqlval) (su : string) (t : table) :
  text_affinity pu = SqlText su → where_user_name pu t = [] →
  su ∉ user_name <$> t.
Proof.
  unfold where_user_name. intros -> Hnil Hin.
  apply list_elem_of_fmap in Hin as (r & -> & Hr).
  assert (r ∈ filter (λ r', user_name r' = user_name r) t) as Hf
    by (apply list_elem_of_filter; auto).
  rewrite Hnil in Hf. inversion Hf.
Qed.

Lemma store_invariant_snoc (t : table) (i : Z) (su sc : string) :
  store_invariant t → su ∉ user_name <$> t → sc ≠ "" →
  store_invariant (t ++ [Row i su sc]).
Proof.
  intros [Hu Hc] Hfresh Hsc. split.
  - unfold unique_user_names in *. rewrite fmap_app. simpl.
    apply NoDup_app. split; [assumption|]. split.
    + intros x Hx Hx'. apply list_elem_of_singleton in Hx'. subst x. contradiction.
    + apply NoDup_singleton.
  - unfold commitments_nonempty in *. apply Forall_app. split; [assumption|].
    apply Forall_singleton. assumption.
Qed.

Lemma enroll_preserves_invariant (e : env) (d : gmap string json) (t : table) :
  store_invariant t → store_invariant (db_after e (enroll_request d) t).
Proof.
  intros Hinv. unfold db_after, handle. simpl. rewrite do_POST_enroll. cbv zeta.
  destruct (py_not (default JNull (d !! "user_name"))
            || py_not (default JNull (d !! "crypto_commitment"))) eqn:Hval;
    [assumption|].
  apply orb_false_iff in Hval as [_ Hc].
  destruct (bind_param (default JNull (d !! "user_name"))) as [x | pu];
    [assumption|].
  destruct (bool_decide (where_user_name pu t ≠ [])) eqn:Hex; [assumption|].
  apply bool_decide_eq_false in Hex.
  assert (where_user_name pu t = []) as Hnil
    by (destruct (where_user_name pu t); [reflexivity | exfalso; apply Hex; discriminate]).
  destruct (bind_param (default JNull (d !! "crypto_commitment"))) as [x | pc] eqn:Hpc;
    [assumption|].
  destruct (insert_row pu pc t) as [x | t'] eqn:Hins; [assumption|].
  apply insert_row_inv in Hins as (su & sc & Hsu & Hsc & ->). simpl.
  apply store_invariant_snoc; [assumption | |].
  - apply (no_row_fresh pu); assumption.
  - apply (truthy_text_nonempty _ pc sc Hc Hpc Hsc).
Qed.

Lemma handle_preserves_invariant (e : env) (req : request) (t : table) :
  store_invariant t → store_invariant (db_after e req t).
Proof.
  intros Hinv. destruct (command req) eqn:Hm.
  - unfold db_after, handle. rewrite Hm, do_GET_spec.
    destruct (String.eqb (path req) "/"); assumption.
  - destruct (request_cases req) as [[H1 H2] | [(x & Hp & Hb) | [[d Hd] | [d Hd]]]].
    + unfold db_after, handle. rewrite Hm, do_POST_other_path by assumption.
      assumption.
    + unfold db_after, handle.
      rewrite Hm, (do_POST_body_raises e req x t Hp Hb). assumption.
    + rewrite Hd, Hm. apply enroll_preserves_invariant, Hinv.
    + rewrite verify_db_unchanged; [assumption | assumption |].
      rewrite Hd. reflexivity.
Qed.

(** C5: every table reachable from the empty one by handling requests one
    after another has at most one record per user name, and no record
    whose commitment is the empty string. *)
Theorem reachable_store_invariant (t : table) :
  reachable t → unique_user_names t ∧ commitments_nonempty t.
Proof.
  induction 1 as [ | e req t _ IH].
  - split; [apply NoDup_nil_2 | apply Forall_nil_2].
  - apply handle_preserves_invariant, IH.
Qed.

Lemma reachable_store_invariant_witness :
  unique_user_names [Row 1 "alice" "AAA111"; Row 2 "bob" "BBB222"]
  ∧ commitments_nonempty [Row 1 "alice" "AAA111"; Row 2 "bob" "BBB222"].
Proof.
  apply (reachable_store_invariant [Row 1 "alice" "AAA111"; Row 2 "bob" "BBB222"]).
  apply (reachable_handle env0 (enroll_request (credentials "bob" "BBB222"))
           [Row 1 "alice" "AAA111"]).
  apply (reachable_handle env0 (enroll_request (credentials "alice" "AAA111")) []).
  apply reachable_init.
Defined.

(** ** Enrollments for one user name *)




Lemma serve_cons (e : env) (req : request) (reqs : list (env * request)) (t : table) :
  serve ((e, req) :: reqs) t
  = ((serve reqs (db_after e req t)).1,
     reply e req t :: (serve reqs (db_after e req t)).2).
Proof.
  simpl. fold (db_after e req t). fold (reply e req t).
  destruct (serve reqs (db_after e req t)). reflexivity.
Qed.


(** A handler stepped on its own, with no other in between, does what
    [do_POST] does. *)
Lemma thread_alone (e : env) (b : payload) (t : table) :
  interleave [0; 0; 0]%nat [Received b] t
  = ([ended e (Request POST "/enroll" b) t],
     db_after e (Request POST "/enroll" b) t).
Proof.
  unfold ended, raised, reply, db_after, handle. cbn [command].
  destruct (body_exception b) as [x|] eqn:Hb.
  - rewrite (do_POST_body_raises e _ x t) by auto.
    cbn [interleave lookup list_lookup step_thread]. rewrite Hb. reflexivity.
  - destruct b as [ | | [ | | | | | d]]; try discriminate.
    fold (enroll_request d). rewrite do_POST_enroll. cbv zeta.
    cbn [interleave lookup list_lookup step_thread body_exception].
    destruct (py_not (default JNull (d !! "user_name"))
              || py_not (default JNull (d !! "crypto_commitment")));
      [reflexivity|].
    cbn [interleave lookup list_lookup step_thread insert list_insert].
    unfold run. rewrite user_exists_spec. cbn [db calls out log].
    destruct (bind_param (default JNull (d !! "user_name"))) as [x|pu] eqn:Hu;
      [reflexivity|].
    destruct (bool_decide (where_user_name pu t ≠ [])); [reflexivity|].
    cbn [interleave lookup list_lookup step_thread insert list_insert].
    unfold run. rewrite save_crypto_commitment_spec. cbn [db calls out log].
    rewrite Hu.
    destruct (bind_param (default JNull (d !! "crypto_commitment"))) as [x|pc];
      [reflexivity|].
    destruct (insert_row pu pc t) as [x|t']; reflexivity.
Qed.




(** * Further properties of the server *)

(** ** What one request can do *)

(** Case analysis on a handler run: the run is rewritten with the equation
    of its branch. *)
Ltac handler_cases e req t Hm :=
  unfold handler_log, reply, raised, db_calls, db_after, handle;
  destruct (command req) eqn:Hm;
  [ rewrite do_GET_spec; destruct (String.eqb (path req) "/")
  | let H1 := fresh "Hp" in
    let H2 := fresh "Hp" in
    let x := fresh "x" in
    let d := fresh "d" in
    let Hd := fresh "Hd" in
    destruct (request_cases req)
      as [[H1 H2] | [(x & H1 & H2) | [[d Hd] | [d Hd]]]];
    [ rewrite (do_POST_other_path e req t H1 H2)
    | rewrite (do_POST_body_raises e req x t H1 H2)
    | rewrite Hd, Hm; fold (enroll_request d); rewrite do_POST_enroll; cbv zeta
    | rewrite Hd, Hm; fold (verify_request d); rewrite do_POST_verify; cbv zeta ] ].

(** X1: a request adds at most one record and never changes or removes an
    existing one, and a record is added exactly when the reply is Created:
    either the reply is Created and the table is the old one followed by
    one new row, or the reply is not Created and the table is unchanged. *)
Theorem record_added_iff_created (e : env) (req : request) (t : table) :
  (reply e req t = Created ∧ ∃ r, db_after e req t = t ++ [r])
  ∨ (reply e req t ≠ Created ∧ db_after e req t = t).
Proof.
  handler_cases e req t Hm; cbn [fst snd db out];
    try (right; split; [discriminate | reflexivity]).
  - repeat case_match; cbn [fst snd db out];
      try (right; split; [discriminate | reflexivity]).
    left. split; [reflexivity|].
    match goal with H : insert_row _ _ _ = inr _ |- _ =>
      apply insert_row_inv in H as (su & sc & _ & _ & ->) end.
    eauto.
  - repeat case_match; cbn [fst snd db out];
      right; (split; [discriminate | reflexivity]).
Qed.

(** X2: a handler that raises has written nothing on the response and has
    left the table as it was; no exception follows a reply or an insert. *)
Theorem exception_leaves_no_trace
    (e : env) (req : request) (t : table) (x : exn) :
  raised e req t = Some x →
  reply e req t = [] ∧ db_after e req t = t ∧ handler_log e req t = [].
Proof.
  handler_cases e req t Hm; cbn [fst snd db out log];
    try discriminate; try (intros _; repeat split; reflexivity);
    repeat case_match; cbn [fst snd db out log];
    try discriminate; intros _; repeat split; reflexivity.
Qed.

Lemma exception_leaves_no_trace_witness :
  reply env0 (Request POST "/enroll" (Decoded (JArr []))) [Row 1 "alice" "AAA111"]
    = []
  ∧ db_after env0 (Request POST "/enroll" (Decoded (JArr [])))
      [Row 1 "alice" "AAA111"] = [Row 1 "alice" "AAA111"]
  ∧ handler_log env0 (Request POST "/enroll" (Decoded (JArr [])))
      [Row 1 "alice" "AAA111"] = [].
Proof.
  apply (exception_leaves_no_trace env0
           (Request POST "/enroll" (Decoded (JArr [])))
           [Row 1 "alice" "AAA111"] AttributeError).
  reflexivity.
Defined.

(** X3: which POST requests are logged. A run that replies 400 or 409, or
    that raises, passes nothing to [logging.info]; every other POST, a
    request for an unknown path included, logs the request time and the
    two resource readings, once. *)
Theorem post_logged_unless_rejected (e : env) (req : request) (t : table) :
  command req = POST →
  handler_log e req t =
  match raised e req t, status_code (reply e req t) with
  | Some _, _ => []
  | None, Some 400 | None, Some 409 => []
  | None, _ => tail_log e (path req)
  end.
Proof.
  intros HP. handler_cases e req t Hm; try discriminate;
    try reflexivity.
  - cbn [path enroll_request].
    destruct (py_not (default JNull (d !! "user_name"))
              || py_not (default JNull (d !! "crypto_commitment")));
      [reflexivity|].
    destruct (bind_param (default JNull (d !! "user_name"))) as [x|pu];
      [reflexivity|].
    destruct (bool_decide (where_user_name pu t ≠ [])); [reflexivity|].
    destruct (bind_param (default JNull (d !! "crypto_commitment"))) as [x|pc];
      [reflexivity|].
    destruct (insert_row pu pc t) as [x|t']; reflexivity.
  - cbn [path verify_request].
    destruct (py_not (default JNull (d !! "user_name"))); [reflexivity|].
    destruct (bind_param (default JNull (d !! "user_name"))) as [x|pu];
      [reflexivity|].
    cbn [fst snd out log].
    destruct (py_eq _ _); reflexivity.
Qed.

Lemma post_logged_unless_rejected_witness :
  handler_log (Env 1 3 20 40) (enroll_request (credentials "alice" "AAA111")) []
  = tail_log (Env 1 3 20 40) "/enroll".
Proof.
  apply (post_logged_unless_rejected (Env 1 3 20 40)
           (enroll_request (credentials "alice" "AAA111")) []).
  reflexivity.
Defined.

(** X4: whatever the request and the table, the handler writes nothing or
    exactly one of the eight replies of the program: a run never sends two
    status lines or two bodies, and never a status other than 200, 201,
    400, 403 or 409. *)
Theorem one_reply_at_most (e : env) (req : request) (t : table) :
  reply e req t ∈ [ []; Alive; BadRequest_enroll; Conflict; Created;
                    BadRequest_verify; Authenticated; Unauthorized ].
Proof.
  handler_cases e req t Hm; cbn [fst snd out];
    repeat case_match; cbn [fst snd out];
    repeat (apply elem_of_cons; first [left; reflexivity | right]).
Qed.

(** ** Enrollment with string credentials *)



(** ** Enrollment followed by verification *)

Lemma lookup_after_append (u u' c : string) (i : Z) (t : table) :
  lookup_commitment u' (t ++ [Row i u c])
  = match lookup_commitment u' t with
    | Some s => Some s
    | None => if decide (u = u') then Some c else None
    end.
Proof.
  unfold lookup_commitment. rewrite filter_app, filter_cons, filter_nil.
  cbn [user_name].
  destruct (filter (λ r, user_name r = u') t) as [ | r l]; cbn.
  - destruct (decide (u = u')); reflexivity.
  - reflexivity.
Qed.




(** ** One user's enrollment and another user's verification *)

(** The table an enrollment request leaves, when its user name is the
    string [u]: the old table, or the old table followed by a row for [u]. *)
Lemma enroll_string_user_db (e : env) (d : gmap string json) (u : string) (t : table) :
  d !! "user_name" = Some (JStr u) →
  db_after e (enroll_request d) t = t
  ∨ ∃ i c, db_after e (enroll_request d) t = t ++ [Row i u c].
Proof.
  intros Hd. unfold db_after, handle. cbn [command enroll_request].
  fold (enroll_request d). rewrite do_POST_enroll, Hd. cbv zeta.
  change (default JNull (Some (JStr u))) with (JStr u).
  change (bind_param (JStr u)) with (@inr exn _ (SqlText u)). cbv iota beta.
  destruct (py_not (JStr u) || py_not (default JNull (d !! "crypto_commitment")));
    [left; reflexivity|].
  destruct (bool_decide (where_user_name (SqlText u) t ≠ [])); [left; reflexivity|].
  destruct (bind_param (default JNull (d !! "crypto_commitment"))) as [x|pc];
    [left; reflexivity|].
  destruct (insert_row (SqlText u) pc t) as [x|t'] eqn:Hins; [left; reflexivity|].
  apply insert_row_inv in Hins as (su & sc & Hsu & _ & ->).
  injection Hsu as <-. right. eauto.
Qed.

(** X7: frame. Handling an enrollment request for the user name [u] does
    not change the answer to any verification request for another user
    name [u']: the reply to it is the same before and after. *)
Theorem enroll_leaves_other_users
    (e1 e2 : env) (d d' : gmap string json) (u u' : string) (t : table) :
  d !! "user_name" = Some (JStr u) →
  d' !! "user_name" = Some (JStr u') →
  u ≠ u' →
  reply e2 (verify_request d') (db_after e1 (enroll_request d) t)
  = reply e2 (verify_request d') t.
Proof.
  intros Hd Hd' Hne.
  destruct (enroll_string_user_db e1 d u t Hd) as [-> | (i & c & ->)];
    [reflexivity|].
  unfold reply, handle. cbn [command verify_request]. fold (verify_request d').
  rewrite !do_POST_verify, Hd'. cbv zeta.
  change (default JNull (Some (JStr u'))) with (JStr u').
  change (bind_param (JStr u')) with (@inr exn _ (SqlText u')). cbv iota beta.
  rewrite !where_user_name_text.
  fold (lookup_commitment u' (t ++ [Row i u c])). fold (lookup_commitment u' t).
  rewrite lookup_after_append, decide_False by exact Hne.
  destruct (py_not (JStr u')); [reflexivity|].
  destruct (lookup_commitment u' t); reflexivity.
Qed.

Lemma enroll_leaves_other_users_witness :
  reply env0 (verify_request (credentials "alice" "AAA111"))
    (db_after env0 (enroll_request (credentials "bob" "BBB222"))
       [Row 1 "alice" "AAA111"])
  = reply env0 (verify_request (credentials "alice" "AAA111"))
      [Row 1 "alice" "AAA111"].
Proof.
  apply (enroll_leaves_other_users env0 env0 (credentials "bob" "BBB222")
           (credentials "alice" "AAA111") "bob" "alice" [Row 1 "alice" "AAA111"]).
  - reflexivity.
  - reflexivity.
  - discriminate.
Defined.

(** ** Values that are not strings *)



(** X9: a user name that passes the presence test but cannot be bound as
    an SQL parameter (a non-empty list or object, an integer outside 64
    bits). Both endpoints raise what the binding raises, after opening a
    connection and before any statement: nothing is written on the
    response and the table is unchanged. For /enroll this needs a
    commitment that passes the presence test too. *)
Theorem unbindable_user_name_raises
    (e : env) (d : gmap string json) (x : exn) (t : table) :
  py_not (default JNull (d !! "user_name")) = false →
  bind_param (default JNull (d !! "user_name")) = inl x →
  (raised e (verify_request d) t = Some x
   ∧ reply e (verify_request d) t = []
   ∧ db_calls e (verify_request d) t = [Connect]
   ∧ db_after e (verify_request d) t = t)
  ∧ (py_not (default JNull (d !! "crypto_commitment")) = false →
     raised e (enroll_request d) t = Some x
     ∧ reply e (enroll_request d) t = []
     ∧ db_calls e (enroll_request d) t = [Connect]
     ∧ db_after e (enroll_request d) t = t).
Proof.
  intros Hv Hb. unfold raised, reply, db_calls, db_after, handle.
  cbn [command enroll_request verify_request].
  fold (enroll_request d). fold (verify_request d).
  rewrite do_POST_verify, do_POST_enroll. cbv zeta. rewrite Hv, Hb.
  split; [repeat split|].
  intros ->. repeat split.
Qed.

Lemma unbindable_user_name_raises_witness :
  let d : gmap string json :=
    {[ "user_name" := JArr [JStr "alice"]; "crypto_commitment" := JStr "AAA111" ]} in
  (raised env0 (verify_request d) [] = Some SqliteInterfaceError
   ∧ reply env0 (verify_request d) [] = []
   ∧ db_calls env0 (verify_request d) [] = [Connect]
   ∧ db_after env0 (verify_request d) [] = [])
  ∧ (py_not (default JNull (d !! "crypto_commitment")) = false →
     raised env0 (enroll_request d) [] = Some SqliteInterfaceError
     ∧ reply env0 (enroll_request d) [] = []
     ∧ db_calls env0 (enroll_request d) [] = [Connect]
     ∧ db_after env0 (enroll_request d) [] = []).
Proof.
  apply (unbindable_user_name_raises env0
           {[ "user_name" := JArr [JStr "alice"];
              "crypto_commitment" := JStr "AAA111" ]}
           SqliteInterfaceError []); reflexivity.
Defined.

(** ** The database functions against each other *)

(** X10: [user_exists] and [verify_crypto_commitment] agree on every value
    and every table: they raise the same exception, or [user_exists]
    returns [True] exactly when [verify_crypto_commitment] returns a
    commitment rather than [None]; neither changes the table. *)
Theorem user_exists_iff_commitment_found (v : json) (s : state) :
  match fst (user_exists v s), fst (verify_crypto_commitment v s) with
  | Ok b, Ok o => b = true ↔ is_Some o
  | Raised x, Raised y => x = y
  | _, _ => False
  end
  ∧ db (snd (user_exists v s)) = db s
  ∧ db (snd (verify_crypto_commitment v s)) = db s.
Proof.
  rewrite user_exists_spec, verify_crypto_commitment_spec.
  destruct (bind_param v) as [x|p]; cbn [fst snd db]; [repeat split|].
  split; [|split; reflexivity].
  destruct (where_user_name p (db s)) as [ | r l]; cbn.
  - split; [discriminate | intros [? ?]; discriminate].
  - split; [eauto | reflexivity].
Qed.


(** ** More on the tables the server reaches *)

(** What a request does to the table: nothing, with a status other than
    201, or it appends one row, with the reply Created. The row carries the
    next rowid, a non-empty user name no row had, and a non-empty
    commitment. *)
Lemma db_after_cases (e : env) (req : request) (t : table) :
  (status_code (reply e req t) ≠ Some 201 ∧ db_after e req t = t)
  ∨ (reply e req t = Created
     ∧ ∃ su sc, su ≠ "" ∧ sc ≠ "" ∧ (su ∉ user_name <$> t)
                ∧ db_after e req t = t ++ [Row (next_row_id t) su sc]).
Proof.
  handler_cases e req t Hm; cbn [fst snd db out];
    try (left; split; [discriminate | reflexivity]).
  - destruct (py_not (default JNull (d !! "user_name"))
              || py_not (default JNull (d !! "crypto_commitment"))) eqn:Hval;
      [left; split; [discriminate | reflexivity]|].
    apply orb_false_iff in Hval as [Hvu Hvc].
    destruct (bind_param (default JNull (d !! "user_name"))) as [x|pu] eqn:Hpu;
      [left; split; [discriminate | reflexivity]|].
    destruct (bool_decide (where_user_name pu t ≠ [])) eqn:Hex;
      [left; split; [discriminate | reflexivity]|].
    apply bool_decide_eq_false in Hex.
    assert (where_user_name pu t = []) as Hnil
      by (destruct (where_user_name pu t);
          [reflexivity | exfalso; apply Hex; discriminate]).
    destruct (bind_param (default JNull (d !! "crypto_commitment")))
      as [x|pc] eqn:Hpc; [left; split; [discriminate | reflexivity]|].
    destruct (insert_row pu pc t) as [x|t'] eqn:Hins;
      [left; split; [discriminate | reflexivity]|].
    apply insert_row_inv in Hins as (su & sc & Hsu & Hsc & ->).
    right. split; [reflexivity|]. exists su, sc. repeat split.
    + apply (truthy_text_nonempty _ pu su Hvu Hpu Hsu).
    + apply (truthy_text_nonempty _ pc sc Hvc Hpc Hsc).
    + apply (no_row_fresh pu); assumption.
  - repeat case_match; cbn [fst snd db out];
      left; (split; [discriminate | reflexivity]).
Qed.

Lemma max_row_id_seqZ (n : nat) (a : Z) :
  0 ≤ a →
  foldr Z.max 0 (seqZ a (Z.of_nat n))
  = match n with O => 0 | S _ => a + Z.of_nat n - 1 end.
Proof.
  revert a. induction n as [ | n IH]; intros a Ha; [reflexivity|].
  rewrite seqZ_cons by lia. cbn [foldr].
  replace (Z.pred (Z.of_nat (S n))) with (Z.of_nat n) by lia.
  rewrite IH by lia. destruct n; lia.
Qed.

Lemma next_row_id_seqZ (t : table) :
  row_id <$> t = seqZ 1 (Z.of_nat (length t)) →
  next_row_id t = Z.of_nat (length t) + 1.
Proof.
  intros H. unfold next_row_id.
  replace (foldr (λ r m, Z.max (row_id r) m) 0 t)
    with (foldr Z.max 0 (row_id <$> t))
    by (clear H; induction t as [ | r t IH]; cbn; [reflexivity | rewrite IH; reflexivity]).
  rewrite H, max_row_id_seqZ by lia. destruct (length t); lia.
Qed.

(** X12: in every reachable table the rowids are 1, 2, ..., n in the order
    of the rows: ids are assigned in the order of enrollment, never reused
    and never skipped. *)
Theorem reachable_row_ids (t : table) :
  reachable t → row_id <$> t = seqZ 1 (Z.of_nat (length t)).
Proof.
  induction 1 as [ | e req t _ IH]; [reflexivity|].
  destruct (db_after_cases e req t)
    as [[_ ->] | (_ & su & sc & _ & _ & _ & ->)]; [exact IH|].
  rewrite fmap_app, length_app, IH, (next_row_id_seqZ t IH). cbn.
  replace (Z.of_nat (length t + 1)) with (Z.of_nat (S (length t))) by lia.
  rewrite seqZ_S. f_equal. f_equal. lia.
Qed.

Lemma reachable_row_ids_witness :
  row_id <$> [Row 1 "alice" "AAA111"; Row 2 "bob" "BBB222"]
  = seqZ 1 (Z.of_nat (length [Row 1 "alice" "AAA111"; Row 2 "bob" "BBB222"])).
Proof.
  apply (reachable_row_ids [Row 1 "alice" "AAA111"; Row 2 "bob" "BBB222"]).
  apply (reachable_handle env0 (enroll_request (credentials "bob" "BBB222"))
           [Row 1 "alice" "AAA111"]).
  apply (reachable_handle env0 (enroll_request (credentials "alice" "AAA111")) []).
  apply reachable_init.
Defined.

(** X13: in every reachable table no record has the empty string as its
    user name. *)
Theorem reachable_user_names_nonempty (t : table) :
  reachable t → Forall (λ r, user_name r ≠ "") t.
Proof.
  induction 1 as [ | e req t _ IH]; [apply Forall_nil_2|].
  destruct (db_after_cases e req t)
    as [[_ ->] | (_ & su & sc & Hsu & _ & _ & ->)]; [exact IH|].
  apply Forall_app. split; [exact IH|]. apply Forall_singleton. exact Hsu.
Qed.

Lemma reachable_user_names_nonempty_witness :
  Forall (λ r, user_name r ≠ "") [Row 1 "alice" "AAA111"].
Proof.
  apply (reachable_user_names_nonempty [Row 1 "alice" "AAA111"]).
  apply (reachable_handle env0 (enroll_request (credentials "alice" "AAA111")) []).
  apply reachable_init.
Defined.

(** X14: over any sequence of requests handled one after another, the
    final table is the initial one followed by new rows, one for each
    reply with status 201: every Created corresponds to a stored record
    and nothing else is ever stored. *)
Theorem stored_records_match_created (reqs : list (env * request)) (t : table) :
  ∃ rows,
    (serve reqs t).1 = t ++ rows
    ∧ length rows
      = length (filter (λ o, status_code o = Some 201) (serve reqs t).2).
Proof.
  revert t. induction reqs as [ | [e req] reqs IH]; intros t.
  - exists []. split; [symmetry; apply app_nil_r | reflexivity].
  - rewrite serve_cons. cbn [fst snd]. rewrite filter_cons.
    destruct (db_after_cases e req t)
      as [[Hst Hdb] | (Hcr & su & sc & _ & _ & _ & Hdb)]; rewrite Hdb.
    + destruct (IH t) as (rows & Hrows & Hlen).
      exists rows. split; [exact Hrows|].
      rewrite decide_False by exact Hst. exact Hlen.
    + destruct (IH (t ++ [Row (next_row_id t) su sc])) as (rows & Hrows & Hlen).
      exists (Row (next_row_id t) su sc :: rows).
      split; [rewrite Hrows, <- app_assoc; reflexivity|].
      rewrite Hcr, decide_True by reflexivity. cbn. rewrite Hlen. reflexivity.
Qed.

(** * Properties of the client *)

(** ** The commitment service *)

Ltac client_unfold :=
  unfold Client.bind, Client.ret, Client.raise, Client.try_except, Client.send,
    Client.logging_info, Client.logging_error; cbn [Client.requests_sent Client.log].

(** Whatever the service answers, [generate_crypto_commitment] sends one
    request, the GET, and logs nothing but errors. *)
Lemma generate_effects (flag : bool) (net : Client.network) (user_secret : Z)
    (s : Client.state) :
  ∃ l,
    snd (Client.generate_crypto_commitment flag net user_secret s)
    = Client.State (Client.requests_sent s ++ [generator_request user_secret])
        (Client.log s ++ l)
    ∧ Forall (λ x, x.1 = Client.ERROR) l.
Proof.
  unfold Client.generate_crypto_commitment, Client.requests_get,
    Client.raise_for_status, Client.response_json, generator_request.
  client_unfold.
  destruct (net _) as [ | status content]; cbn.
  { exists [(Client.ERROR, Client.ErrorGenerating Client.ConnectionFailed)].
    split; [reflexivity | repeat constructor]. }
  destruct ((400 <=? status) && (status <? 600)); cbn.
  { eexists [_]. split; [reflexivity | repeat constructor]. }
  destruct content as [v | ]; cbn.
  - destruct v as [ | b | z | s' | l | d]; cbn;
      try (exists []; split; [rewrite app_nil_r; reflexivity | constructor]).
    + destruct (String.index 0 _ s'); cbn;
        [ exists []; split; [rewrite app_nil_r; reflexivity | constructor]
        | eexists [_]; split; [reflexivity | repeat constructor] ].
    + destruct (existsb _ l); cbn;
        [ exists []; split; [rewrite app_nil_r; reflexivity | constructor]
        | eexists [_]; split; [reflexivity | repeat constructor] ].
    + destruct (d !! "crypto_commitment") as [v | ] eqn:Hd; cbn.
      * exists []. split; [rewrite app_nil_r; reflexivity | constructor].
      * eexists [_]. split; [reflexivity | repeat constructor].
  - destruct flag; cbn.
    + eexists [_]. split; [reflexivity | repeat constructor].
    + exists []. split; [rewrite app_nil_r; reflexivity | constructor].
Qed.

(** X15: [sign_in] with no usable commitment. When
    [generate_crypto_commitment] returns [None] or any other value that
    tests false (the service cannot be reached, answers 4xx or 5xx, or
    without the key, or with an empty commitment), [sign_in] logs the
    failure and returns: the only request sent is the GET to the
    commitment service, and the authentication server is never contacted. *)
Theorem sign_in_without_commitment_sends_nothing
    (flag : bool) (net : Client.network) (rd : Client.readings)
    (user_name : string) (user_secret : Z) (c : json) :
  let g := Client.run (Client.generate_crypto_commitment flag net user_secret) in
  fst g = Client.Returned c → py_not c = true →
  Client.run (Client.sign_in flag net rd user_name user_secret)
  = (Client.Returned tt,
     Client.State [generator_request user_secret]
       (Client.log (snd g) ++ [(Client.ERROR, Client.FailedToGenerateSignIn)])).
Proof.
  intros g Hret Hc. unfold Client.sign_in, Client.run, Client.bind.
  unfold g, Client.run in Hret.
  destruct (generate_effects flag net user_secret (Client.State [] []))
    as (l & Hs & _).
  unfold g, Client.run.
  destruct (Client.generate_crypto_commitment flag net user_secret
              (Client.State [] [])) as [r s'].
  cbn [fst snd] in *. subst r s'. rewrite Hc.
  unfold Client.logging_error. reflexivity.
Qed.

Lemma sign_in_without_commitment_sends_nothing_witness :
  Client.run (Client.sign_in true (λ _, Client.Response 404 Client.NotJsonText)
                (Client.Readings 0 0 0 0 0 0) "alice" 123)
  = (Client.Returned tt,
     Client.State [generator_request 123]
       [ (Client.ERROR, Client.ErrorGenerating (Client.HTTPError 404));
         (Client.ERROR, Client.FailedToGenerateSignIn) ]).
Proof.
  apply (sign_in_without_commitment_sends_nothing true
           (λ _, Client.Response 404 Client.NotJsonText)
           (Client.Readings 0 0 0 0 0 0) "alice" 123 JNull); reflexivity.
Defined.

(** ** The client talking to the server *)

Lemma payload_user_name (u : string) (c : json) :
  ({[ "user_name" := JStr u; "crypto_commitment" := c ]} : gmap string json)
    !! "user_name" = Some (JStr u).
Proof. apply lookup_insert_eq. Qed.

Lemma payload_commitment (u : string) (c : json) :
  ({[ "user_name" := JStr u; "crypto_commitment" := c ]} : gmap string json)
    !! "crypto_commitment" = Some c.
Proof. rewrite lookup_insert_ne by discriminate. apply lookup_singleton_eq. Qed.

(** What the client receives for a verification request. *)
Lemma verify_over_http (e : env) (t : table) (u : string) (c : json) :
  over_http
    (run (handle e
            (Request POST "/verifyCommitment"
               (Decoded (JObj {[ "user_name" := JStr u; "crypto_commitment" := c ]}))))
       t)
  = if String.eqb u "" then
      Client.Response 400 (Client.IsJson (JObj {[ "error" := JStr "Missing username" ]}))
    else if py_eq (lookup_commitment u t) c then
      Client.Response 200 (Client.IsJson (JObj {[ "message" := JStr "Login Successful" ]}))
    else
      Client.Response 403 (Client.IsJson (JObj {[ "error" := JStr "Unauthorized" ]})).
Proof.
  unfold handle. cbn [command].
  fold (verify_request {[ "user_name" := JStr u; "crypto_commitment" := c ]}).
  rewrite do_POST_verify, payload_user_name, payload_commitment. cbv zeta.
  change (default JNull (Some (JStr u))) with (JStr u).
  change (default JNull (Some c)) with c.
  cbn [py_not bind_param]. destruct (String.eqb u ""); [reflexivity|].
  rewrite where_user_name_text. fold (lookup_commitment u t).
  destruct (py_eq (lookup_commitment u t) c); reflexivity.
Qed.


Ltac no_success H HF :=
  rewrite <- ?app_assoc in H; cbn [app] in H;
  apply elem_of_app in H as [H | H];
  [ rewrite Forall_forall in HF; apply HF in H; discriminate H
  | repeat (apply elem_of_cons in H as [H | H]; [discriminate H|]);
    inversion H ].

(** X16: sign-in through the client is sound. Against the server running
    on the table [t], whatever the commitment service answers, [sign_in]
    logs "Sign-in successful" only if the commitment it generated is a
    non-empty string and [t] holds exactly this string as the commitment
    of the user name. In particular no sign-in succeeds for a user name
    without a record. *)
Theorem sign_in_success_requires_matching_record
    (flag : bool) (e : env) (t : table) (generator : Client.http_result)
    (rd : Client.readings) (u : string) (user_secret : Z) (m : json) :
  (Client.INFO, Client.SignInSuccessful m)
    ∈ Client.log (snd (Client.run
                         (Client.sign_in flag (served_by e t generator) rd u user_secret))) →
  ∃ c, c ≠ ""
       ∧ fst (Client.run (Client.generate_crypto_commitment flag
                            (served_by e t generator) user_secret))
         = Client.Returned (JStr c)
       ∧ lookup_commitment u t = Some c
       ∧ registered u t.
Proof.
  unfold Client.run, Client.sign_in. unfold Client.bind at 1.
  destruct (generate_effects flag (served_by e t generator) user_secret
              (Client.State [] [])) as (l & Hs & HF).
  destruct (Client.generate_crypto_commitment flag (served_by e t generator)
              user_secret (Client.State [] [])) as [[c | x] s'];
    cbn [fst snd] in *; subst s'; cbn [Client.log app].
  2:{ intros H. rewrite Forall_forall in HF. apply HF in H. discriminate H. }
  destruct (py_not c) eqn:Hc.
  { unfold Client.logging_error. cbn [snd Client.log]. intros H. no_success H HF. }
  unfold Client.log_system_resources, Client.requests_post. client_unfold.
  cbn [served_by String.eqb Ascii.eqb Bool.eqb].
  rewrite verify_over_http.
  destruct (String.eqb_spec u "") as [-> | Hu].
  { unfold Client.raise_for_status. cbn. intros H. no_success H HF. }
  destruct (py_eq (lookup_commitment u t) c) eqn:Heq.
  2:{ unfold Client.raise_for_status. cbn. intros H. no_success H HF. }
  intros _.
  destruct (lookup_commitment u t) as [s | ] eqn:Hl;
    destruct c as [ | b | z | s' | l' | d]; try discriminate.
  cbn in Heq. apply String.eqb_eq in Heq. subst s'.
  exists s. repeat split.
  - intros ->. discriminate.
  - apply registered_filter. unfold lookup_commitment in Hl.
    destruct (filter (λ r, user_name r = u) t); discriminate.
Qed.

Lemma sign_in_success_requires_matching_record_witness :
  let generator :=
    Client.Response 200 (Client.IsJson (JObj {[ "crypto_commitment" := JStr "AAA111" ]})) in
  ∃ c, c ≠ ""
       ∧ fst (Client.run (Client.generate_crypto_commitment true
                            (served_by env0 [Row 1 "alice" "AAA111"] generator) 123))
         = Client.Returned (JStr c)
       ∧ lookup_commitment "alice" [Row 1 "alice" "AAA111"] = Some c
       ∧ registered "alice" [Row 1 "alice" "AAA111"].
Proof.
  apply (sign_in_success_requires_matching_record true env0
           [Row 1 "alice" "AAA111"]
           (Client.Response 200
              (Client.IsJson (JObj {[ "crypto_commitment" := JStr "AAA111" ]})))
           (Client.Readings 0 0 0 0 0 0) "alice" 123
           (JStr "Login Successful")).
  vm_compute. repeat (first [left; reflexivity | right]).
Defined.






(** X19: the commitment service answering, under a status that is not an
    error, with JSON that is [null], a boolean or a number. The test
    ['crypto_commitment' in data] raises [TypeError], which the
    [except RequestException] clause does not catch: the exception leaves
    [generate_crypto_commitment] and then [sign_in], nothing is logged and
    the authentication server is not contacted. *)
Theorem generate_on_scalar_raises
    (flag : bool) (net : Client.network) (rd : Client.readings)
    (user_name : string) (user_secret status : Z) (v : json) :
  net (generator_request user_secret) = Client.Response status (Client.IsJson v) →
  ¬ (400 ≤ status < 600) →
  (v = JNull ∨ (∃ b, v = JBool b) ∨ (∃ z, v = JInt z)) →
  Client.run (Client.generate_crypto_commitment flag net user_secret)
    = (Client.Raised Client.TypeError,
       Client.State [generator_request user_secret] [])
  ∧ Client.run (Client.sign_in flag net rd user_name user_secret)
    = (Client.Raised Client.TypeError,
       Client.State [generator_request user_secret] []).
Proof.
  intros Hnet Hst Hv.
  assert (Client.run (Client.generate_crypto_commitment flag net user_secret)
          = (Client.Raised Client.TypeError,
             Client.State [generator_request user_secret] [])) as Hg.
  { unfold Client.run, Client.generate_crypto_commitment, Client.requests_get,
      Client.raise_for_status, Client.response_json.
    client_unfold. fold (generator_request user_secret). rewrite Hnet. cbn.
    assert ((400 <=? status) && (status <? 600) = false) as ->.
    { apply andb_false_iff.
      destruct (Z.leb_spec 400 status); [|left; reflexivity].
      right. apply Z.ltb_ge. lia. }
    destruct Hv as [-> | [[b ->] | [z ->]]]; reflexivity. }
  split; [exact Hg|].
  unfold Client.run in *. unfold Client.sign_in, Client.bind. rewrite Hg.
  reflexivity.
Qed.

Lemma generate_on_scalar_raises_witness :
  let net : Client.network := λ _, Client.Response 200 (Client.IsJson (JInt 7)) in
  Client.run (Client.generate_crypto_commitment true net 123)
    = (Client.Raised Client.TypeError, Client.State [generator_request 123] [])
  ∧ Client.run (Client.sign_in true net (Client.Readings 0 0 0 0 0 0) "alice" 123)
    = (Client.Raised Client.TypeError, Client.State [generator_request 123] []).
Proof.
  apply (generate_on_scalar_raises true
           (λ _, Client.Response 200 (Client.IsJson (JInt 7)))
           (Client.Readings 0 0 0 0 0 0) "alice" 123 200 (JInt 7)).
  - reflexivity.
  - lia.
  - right. right. exists 7. reflexivity.
Defined.
